(** * The paginated query controller of the OPTIMADE client

    A shallow embedding of [OptimadeQueryFilterWidget]
    (src/aiidalab_optimade/query_filter.py): the widget is a record of its
    instance attributes, its methods are programs of a small state and
    exception monad, and the remote service is an oracle from requests to
    replies. *)

From stdpp Require Import base strings gmap list.
From Stdlib Require Import ZArith Ascii.

Local Open Scope string_scope.

(** ** Response documents

    The JSON body of a reply: every top-level key may be absent. *)

Record ResultRecord := {
  rec_id : string;
  rec_attributes : gmap string string
}.

Record ResponseMeta := {
  api_version : option string;
  data_returned : option Z
}.

Record PageLinks := {
  links_next : option string
}.

Record ErrorObject := {
  title : string;
  detail : string;
  status : string
}.

Record Document := {
  doc_data : option (list ResultRecord);
  doc_meta : option ResponseMeta;
  doc_links : option PageLinks;
  doc_errors : option (list ErrorObject)
}.

(** What [_query] hands back: a decoded body, or one of the two markers.
    [DecodeFailed] is the dictionary [{"errors": {}}] that [_query] builds
    when the body is not JSON. *)
Inductive RawResponse :=
| TransportFailed (text : string)
| DecodeFailed
| Decoded (doc : Document).

(** ** Requests and the remote service *)

(** The keyword arguments [_query] passes to [perform_optimade_query]. *)
Record Queries := {
  base_url : string;
  filter_ : string;
  format_ : string;
  email : option string;
  fields : option (list string);
  limit : Z;
  q_offset : Z
}.

Inductive Request :=
| GetLink (url : string)
| GetQuery (queries : Queries).

(** What one HTTP GET can do: fail on the wire, answer with a body that is
    not JSON, or answer with a JSON document. *)
Inductive NetReply :=
| NetFail (text : string)
| NotJson
| JsonBody (doc : Document).

(** ** Exceptions and results *)

Inductive Exn :=
| RequestException (text : string)
| KeyError (key : string)
| TypeError (what : string)
| BadResource (resource : ResultRecord) (fields : list string) (msg : string)
| ApiVersionError (version : string)
| ProcessingFault (messages : list string).

Inductive Result (A : Type) :=
| Ret (a : A)
| Raise (e : Exn).
Arguments Ret {A} a.
Arguments Raise {A} e.

(** The message shown in [error_or_status_messages]; [None] in an
    [option Message] stands for the empty string. *)
Inductive Message :=
| TransportError (text : string)
| ApiError (messages : list string) (detail : option string).

(** ** FilterBuilder: the conditional expression of [_query] *)

(** The double-quote character of the filter grammar. *)
Definition dquote : string := String (Ascii.ascii_of_nat 34) EmptyString.

Definition add_to_filter : string :=
  "NOT structure_features HAS ANY " +:+ dquote +:+ "disorder" +:+ dquote
  +:+ "," +:+ dquote +:+ "unknown_positions" +:+ dquote.

(** [filter_ = "( {} ) AND ( {} )".format(filter_, add_to_filter) if filter_
    else add_to_filter]: a Python string is false exactly when empty. *)
Definition filter_expression (filter_ : string) : string :=
  match filter_ with
  | EmptyString => add_to_filter
  | String _ _ => "( " +:+ filter_ +:+ " ) AND ( " +:+ add_to_filter +:+ " )"
  end.

(** ** The widget and its sub-widgets

    [FilterInputs], [StructureDropdown] and [ResultsPageChooser] come from
    [aiidalab_optimade.subwidgets]; only the attributes the controller
    reads or writes are kept. *)

Record Button := {
  description : string;
  icon : string;
  tooltip : string;
  disabled : bool
}.

(** Modelled from the spec: the [FilterInputs] sub-widget, which supplies
    the user's filter fragment ([collect_value]) and can be frozen. *)
Record FilterInputs := {
  collect_value : string;
  fi_frozen : bool
}.

(** Modelled from the spec: the [StructureDropdown] sub-widget, which
    receives the labelled records ([set_options]) and can be frozen. *)
Record StructureDropdown := {
  options : list (string * ResultRecord);
  sd_frozen : bool
}.

(** Modelled from the spec: the [ResultsPageChooser] sub-widget, holder of
    the pagination data of section 4.4 that is not a field of the widget
    itself: the continuation link and the total count. *)
Record ResultsPageChooser := {
  total_count : option Z;
  next_link : option string;
  pc_frozen : bool
}.

Record Widget := {
  debug : bool;
  embedded : bool;
  page_limit : Z;
  offset : Z;
  filters : FilterInputs;
  query_button : Button;
  structure_drop : StructureDropdown;
  error_or_status_messages : option Message;
  structure_page_chooser : ResultsPageChooser;
  database : string * option (gmap string string);
  (** ghost: every GET issued so far, oldest first *)
  sent : list Request
}.

Definition set_offset (n : Z) (self : Widget) : Widget :=
  {| debug := debug self; embedded := embedded self;
     page_limit := page_limit self; offset := n;
     filters := filters self; query_button := query_button self;
     structure_drop := structure_drop self;
     error_or_status_messages := error_or_status_messages self;
     structure_page_chooser := structure_page_chooser self;
     database := database self; sent := sent self |}.

Definition set_filters (f : FilterInputs) (self : Widget) : Widget :=
  {| debug := debug self; embedded := embedded self;
     page_limit := page_limit self; offset := offset self;
     filters := f; query_button := query_button self;
     structure_drop := structure_drop self;
     error_or_status_messages := error_or_status_messages self;
     structure_page_chooser := structure_page_chooser self;
     database := database self; sent := sent self |}.

Definition set_query_button (b : Button) (self : Widget) : Widget :=
  {| debug := debug self; embedded := embedded self;
     page_limit := page_limit self; offset := offset self;
     filters := filters self; query_button := b;
     structure_drop := structure_drop self;
     error_or_status_messages := error_or_status_messages self;
     structure_page_chooser := structure_page_chooser self;
     database := database self; sent := sent self |}.

Definition set_structure_drop (d : StructureDropdown) (self : Widget) : Widget :=
  {| debug := debug self; embedded := embedded self;
     page_limit := page_limit self; offset := offset self;
     filters := filters self; query_button := query_button self;
     structure_drop := d;
     error_or_status_messages := error_or_status_messages self;
     structure_page_chooser := structure_page_chooser self;
     database := database self; sent := sent self |}.

Definition set_error_or_status_messages (m : option Message) (self : Widget)
  : Widget :=
  {| debug := debug self; embedded := embedded self;
     page_limit := page_limit self; offset := offset self;
     filters := filters self; query_button := query_button self;
     structure_drop := structure_drop self;
     error_or_status_messages := m;
     structure_page_chooser := structure_page_chooser self;
     database := database self; sent := sent self |}.

Definition set_structure_page_chooser (c : ResultsPageChooser) (self : Widget)
  : Widget :=
  {| debug := debug self; embedded := embedded self;
     page_limit := page_limit self; offset := offset self;
     filters := filters self; query_button := query_button self;
     structure_drop := structure_drop self;
     error_or_status_messages := error_or_status_messages self;
     structure_page_chooser := c;
     database := database self; sent := sent self |}.

Definition set_database (d : string * option (gmap string string))
  (self : Widget) : Widget :=
  {| debug := debug self; embedded := embedded self;
     page_limit := page_limit self; offset := offset self;
     filters := filters self; query_button := query_button self;
     structure_drop := structure_drop self;
     error_or_status_messages := error_or_status_messages self;
     structure_page_chooser := structure_page_chooser self;
     database := d; sent := sent self |}.

Definition log_request (r : Request) (self : Widget) : Widget :=
  {| debug := debug self; embedded := embedded self;
     page_limit := page_limit self; offset := offset self;
     filters := filters self; query_button := query_button self;
     structure_drop := structure_drop self;
     error_or_status_messages := error_or_status_messages self;
     structure_page_chooser := structure_page_chooser self;
     database := database self; sent := sent self ++ [r] |}.

(** ** The monad of widget methods: state passing with exceptions *)

Definition M (A : Type) : Type := Widget -> Result A * Widget.

Definition ret {A} (a : A) : M A := fun self => (Ret a, self).

Definition raise {A} (e : Exn) : M A := fun self => (Raise e, self).

Definition bind {A B} (m : M A) (k : A -> M B) : M B :=
  fun self =>
    match m self with
    | (Ret a, self') => k a self'
    | (Raise e, self') => (Raise e, self')
    end.

Definition get : M Widget := fun self => (Ret self, self).

Definition modify (f : Widget -> Widget) : M unit :=
  fun self => (Ret tt, f self).

Definition lift {A} (r : Result A) : M A := fun self => (r, self).

(** [try: body finally: final]. The final block runs on every exit of the
    body, normal, early [return] or exception; an exception of the final
    block replaces the pending result. *)
Definition try_finally {A} (body : M A) (final : M unit) : M A :=
  fun self =>
    let (r, self1) := body self in
    match final self1 with
    | (Ret _, self2) => (r, self2)
    | (Raise e, self2) => (Raise e, self2)
    end.

(** stdpp's monadic notations [x ← m; k] and [m;; k] for [M]. *)
#[global] Instance M_ret : MRet M := @ret.
#[global] Instance M_bind : MBind M := fun A B k m => bind m k.

(** ** Collaborators outside the widget's own module *)

(** Modelled from the spec: the human-readable message of one error
    object, from its title, detail and status (section 4.3, step 3). *)
Definition error_message (e : ErrorObject) : string :=
  title e +:+ ": " +:+ detail e +:+ " (" +:+ status e +:+ ")".

(** Modelled from the spec: [handle_errors] of [aiidalab_optimade.utils],
    steps 1 to 3 of the classifier's decision order (section 4.3). A marker
    or a non-empty [errors] collection gives the message to display; in
    strict (debug) mode a non-empty [errors] collection is a fatal fault
    instead; anything else gives the empty message. *)
Definition handle_errors (response : RawResponse) (debug : bool)
  : Result (option Message) :=
  match response with
  | TransportFailed text => Ret (Some (TransportError text))
  | DecodeFailed => Ret (Some (ApiError ["Unable to decode response"] None))
  | Decoded doc =>
      match doc_errors doc with
      | Some (e :: es) =>
          if debug then Raise (ProcessingFault (error_message <$> e :: es))
          else Ret (Some (ApiError (error_message <$> e :: es) None))
      | Some [] | None => Ret None
      end
  end.

(** The major version: the characters before the first dot. *)
Fixpoint major_version (version : string) : string :=
  match version with
  | EmptyString => EmptyString
  | String c rest =>
      if Ascii.eqb c "."%char then EmptyString
      else String c (major_version rest)
  end.

(** Modelled from the spec: [validate_api_version] of
    [aiidalab_optimade.utils], step 4 of the classifier (section 4.3). A
    version that is present and whose major version is not 1 is refused;
    the caller passes the empty string for an absent version. *)
Definition validate_api_version (version : string) : Result unit :=
  match version with
  | EmptyString => Ret tt
  | String _ _ =>
      if String.eqb (major_version version) "1" then Ret tt
      else Raise (ApiVersionError version)
  end.

(** Modelled from the spec: [ResultsPageChooser.set_pagination_data], the
    operations of section 4.4. [reset_cache] is [reset()]: the recorded
    link and total count are forgotten first. A call with [data_returned]
    is [recordQuery]: it sets the total count, and sets the continuation
    link from [links.next] if present. A call with the links alone is
    [recordPageAdvance]: it updates the continuation link from
    [links.next] and does not touch the total count. *)
Definition set_pagination_data (data_returned : option Z)
  (links_to_page : option PageLinks) (reset_cache : bool)
  (c : ResultsPageChooser) : ResultsPageChooser :=
  let total0 := if reset_cache then None else total_count c in
  let next0 := if reset_cache then None else next_link c in
  {| total_count :=
       match data_returned with Some n => Some n | None => total0 end;
     next_link :=
       match links_to_page with
       | Some l =>
           match data_returned with
           | Some _ =>
               match links_next l with Some url => Some url | None => next0 end
           | None => links_next l
           end
       | None => next0
       end;
     pc_frozen := pc_frozen c |}.

(** Modelled from the spec: [freeze], [unfreeze] and [set_options] of the
    sub-widgets, as writes of the attribute they stand for. *)
Definition fi_freeze (f : FilterInputs) : FilterInputs :=
  {| collect_value := collect_value f; fi_frozen := true |}.
Definition fi_unfreeze (f : FilterInputs) : FilterInputs :=
  {| collect_value := collect_value f; fi_frozen := false |}.
Definition sd_freeze (d : StructureDropdown) : StructureDropdown :=
  {| options := options d; sd_frozen := true |}.
Definition sd_unfreeze (d : StructureDropdown) : StructureDropdown :=
  {| options := options d; sd_frozen := false |}.
Definition set_options (structures : list (string * ResultRecord))
  (d : StructureDropdown) : StructureDropdown :=
  {| options := structures; sd_frozen := sd_frozen d |}.
Definition pc_freeze (c : ResultsPageChooser) : ResultsPageChooser :=
  {| total_count := total_count c; next_link := next_link c;
     pc_frozen := true |}.
Definition pc_unfreeze (c : ResultsPageChooser) : ResultsPageChooser :=
  {| total_count := total_count c; next_link := next_link c;
     pc_frozen := false |}.

(** ** Dictionary access on a response *)

(** [response["data"]] *)
Definition getitem_data (response : RawResponse) : Result (list ResultRecord) :=
  match response with
  | Decoded doc =>
      match doc_data doc with
      | Some data => Ret data
      | None => Raise (KeyError "data")
      end
  | TransportFailed _ | DecodeFailed => Raise (KeyError "data")
  end.

(** [response.get("meta", {})] *)
Definition get_meta (response : RawResponse) : ResponseMeta :=
  match response with
  | Decoded doc =>
      default {| api_version := None; data_returned := None |} (doc_meta doc)
  | TransportFailed _ | DecodeFailed =>
      {| api_version := None; data_returned := None |}
  end.

(** [response.get("links", {})] *)
Definition get_links (response : RawResponse) : PageLinks :=
  match response with
  | Decoded doc => default {| links_next := None |} (doc_links doc)
  | TransportFailed _ | DecodeFailed => {| links_next := None |}
  end.

(** ** Methods of [OptimadeQueryFilterWidget] *)

(** The path a command left by: it ran to its end, or it took the early
    [return] after showing a message. *)
Inductive Outcome :=
| Completed
| Reported (msg : Message).

Definition set_button_text (d i t : string) (self : Widget) : Widget :=
  set_query_button
    {| description := d; icon := i; tooltip := t;
       disabled := disabled (query_button self) |} self.

Definition set_button_disabled (b : bool) (self : Widget) : Widget :=
  set_query_button
    {| description := description (query_button self);
       icon := icon (query_button self);
       tooltip := tooltip (query_button self);
       disabled := b |} self.

Definition freeze : M unit :=
  modify (set_button_disabled true);;
  modify (fun self => set_filters (fi_freeze (filters self)) self);;
  modify (fun self =>
            set_structure_drop (sd_freeze (structure_drop self)) self);;
  modify (fun self =>
            set_structure_page_chooser
              (pc_freeze (structure_page_chooser self)) self).

Definition unfreeze : M unit :=
  modify (set_button_disabled false);;
  modify (fun self => set_filters (fi_unfreeze (filters self)) self);;
  modify (fun self =>
            set_structure_drop (sd_unfreeze (structure_drop self)) self);;
  modify (fun self =>
            set_structure_page_chooser
              (pc_unfreeze (structure_page_chooser self)) self).

(** [self.database[1]["base_url"]] *)
Definition database_base_url (self : Widget) : Result string :=
  match (database self).2 with
  | None => Raise (TypeError "NoneType is not subscriptable")
  | Some d =>
      match d !! "base_url" with
      | Some url => Ret url
      | None => Raise (KeyError "base_url")
      end
  end.

Definition formula_fields : list string :=
  ["chemical_formula_descriptive"; "chemical_formula_reduced";
   "chemical_formula_anonymous"; "chemical_formula_hill"].

(** The chain of [if formula is None] of [_update_structures]. *)
Definition formula_of (structure : ResultRecord) : option string :=
  let attributes := rec_attributes structure in
  let formula := attributes !! "chemical_formula_descriptive" in
  let formula :=
    if formula is None then attributes !! "chemical_formula_reduced"
    else formula in
  let formula :=
    if formula is None then attributes !! "chemical_formula_anonymous"
    else formula in
  let formula :=
    if formula is None then attributes !! "chemical_formula_hill"
    else formula in
  formula.

Definition bad_resource_msg : string :=
  "At least one of the following chemical formula fields should have a valid value".

Definition entry_name (formula : string) (structure : ResultRecord) : string :=
  formula +:+ " (id=" +:+ rec_id structure +:+ ")".

(** The loop of [_update_structures]: the labelled records in the order of
    the data, or the [BadResource] of the first record without a formula.
    [Structure(entry)] is the record itself, an absent attribute reads as
    [None]. *)
Fixpoint label_structures (data : list ResultRecord)
  : Result (list (string * ResultRecord)) :=
  match data with
  | [] => Ret []
  | entry :: rest =>
      match formula_of entry with
      | None => Raise (BadResource entry formula_fields bad_resource_msg)
      | Some formula =>
          match label_structures rest with
          | Ret structures => Ret ((entry_name formula entry, entry) :: structures)
          | Raise e => Raise e
          end
      end
  end.

Definition _update_structures (data : list ResultRecord) : M unit :=
  structures ← lift (label_structures data);
  modify (fun self =>
            set_structure_drop (set_options structures (structure_drop self))
              self).

Section Controller.

(** The remote service: the reply to each GET. *)
Variable net : Request -> NetReply.

(** Modelled from the spec: [perform_optimade_query] of
    [aiidalab_optimade.utils], the executor of section 4.2 for a request
    built from parameters. It issues one GET and never raises: a failure
    on the wire becomes the transport-failed marker carrying the error
    text, a body that is not JSON the decode-failed marker. *)
Definition perform_optimade_query (queries : Queries) : M RawResponse :=
  modify (log_request (GetQuery queries));;
  mret match net (GetQuery queries) with
       | NetFail text => TransportFailed text
       | NotJson => DecodeFailed
       | JsonBody doc => Decoded doc
       end.

(** [requests.get(link).json()] inside [try: ... except JSONDecodeError].
    The exception of a failed GET is not a [JSONDecodeError]. *)
Definition _query (link : option string) : M RawResponse :=
  match link with
  | Some link =>
      modify (log_request (GetLink link));;
      match net (GetLink link) with
      | NetFail text => raise (RequestException text)
      | NotJson => mret DecodeFailed
      | JsonBody doc => mret (Decoded doc)
      end
  | None =>
      self ← get;
      let filter_ := filter_expression (collect_value (filters self)) in
      url ← lift (database_base_url self);
      perform_optimade_query
        {| base_url := url; filter_ := filter_; format_ := "json";
           email := None; fields := None;
           limit := page_limit self; q_offset := offset self |}
  end.

Definition restore_controls : M unit :=
  modify (set_button_text "Search" "search" "Search");;
  unfreeze.

Definition retrieve_data : M Outcome :=
  try_finally
    (freeze;;
     modify (set_error_or_status_messages None);;
     modify (set_button_text "Querying ... " "cog" "Please wait ...");;
     response ← _query None;
     self ← get;
     msg ← lift (handle_errors response (debug self));
     match msg with
     | Some msg =>
         modify (set_error_or_status_messages (Some msg));;
         mret (Reported msg)
     | None =>
         lift (validate_api_version
                 (default EmptyString (api_version (get_meta response))));;
         data ← lift (getitem_data response);
         _update_structures data;;
         modify (fun self =>
                   set_structure_page_chooser
                     (set_pagination_data
                        (Some (default 0%Z (data_returned (get_meta response))))
                        (Some (get_links response)) true
                        (structure_page_chooser self)) self);;
         mret Completed
     end)
    restore_controls.

(** The new value of the observed trait: [Union[int, str]]. *)
Inductive Target :=
| Offset (n : Z)
| Link (url : string).

Definition _get_more_results (change_new : Target) : M Outcome :=
  offset_or_link ←
    match change_new with
    | Offset n => modify (set_offset n);; mret None
    | Link url => mret (Some url)
    end;
  try_finally
    (freeze;;
     modify (set_button_text "Updating ... " "cog" "Please wait ...");;
     response ← _query offset_or_link;
     self ← get;
     msg ← lift (handle_errors response (debug self));
     match msg with
     | Some msg =>
         modify (set_error_or_status_messages (Some msg));;
         mret (Reported msg)
     | None =>
         data ← lift (getitem_data response);
         _update_structures data;;
         modify (fun self =>
                   set_structure_page_chooser
                     (set_pagination_data None (Some (get_links response))
                        false (structure_page_chooser self)) self);;
         mret Completed
     end)
    restore_controls.

End Controller.

(** [__init__]: no database chosen yet, filters frozen, first page. *)
Definition __init__ (debug embedded : bool) (result_limit : option Z) : Widget :=
  {| debug := debug; embedded := embedded;
     page_limit :=
       match result_limit with
       | Some n => if Z.eqb n 0 then 10%Z else n
       | None => 10%Z
       end;
     offset := 0;
     filters := {| collect_value := EmptyString; fi_frozen := true |};
     query_button :=
       {| description := "Search"; icon := "search";
          tooltip := "Search - No database chosen"; disabled := true |};
     structure_drop := {| options := []; sd_frozen := true |};
     error_or_status_messages := None;
     structure_page_chooser :=
       {| total_count := None; next_link := None; pc_frozen := false |};
     database := (EmptyString, None);
     sent := [] |}.

(** ** Commands of the controller *)

Inductive Command :=
| SubmitQuery
| AdvancePage (target : Target).

Definition execute (net : Request -> NetReply) (c : Command) : M Outcome :=
  match c with
  | SubmitQuery => retrieve_data net
  | AdvancePage target => _get_more_results net target
  end.

(** A session: the commands run one after the other on the same widget,
    whatever each one's outcome. *)
Fixpoint session (net : Request -> NetReply) (cs : list Command)
  (self : Widget) : Widget :=
  match cs with
  | [] => self
  | c :: cs => session net cs (execute net c self).2
  end.

(** The [queries] dictionary [_query] builds on [self] for the base URL
    [url]. *)
Definition queries_of (self : Widget) (url : string) : Queries :=
  {| base_url := url;
     filter_ := filter_expression (collect_value (filters self));
     format_ := "json"; email := None; fields := None;
     limit := page_limit self; q_offset := offset self |}.

(** The GET a command issues on [self], when it gets as far as issuing
    one: a page advance to an integer stores it in [offset] first. *)
Definition request_of (c : Command) (self : Widget) : Result Request :=
  match c with
  | SubmitQuery =>
      match database_base_url self with
      | Ret url => Ret (GetQuery (queries_of self url))
      | Raise e => Raise e
      end
  | AdvancePage (Offset n) =>
      match database_base_url self with
      | Ret url => Ret (GetQuery (queries_of (set_offset n self) url))
      | Raise e => Raise e
      end
  | AdvancePage (Link url) => Ret (GetLink url)
  end.

(** The offset a command's request is built with. *)
Definition offset_used (c : Command) (self : Widget) : Z :=
  match c with
  | AdvancePage (Offset n) => n
  | SubmitQuery | AdvancePage (Link _) => offset self
  end.

(** The controls in their resting state: the button reads Search and
    nothing is frozen. *)
Definition controls_restored (self : Widget) : Prop :=
  query_button self =
    {| description := "Search"; icon := "search"; tooltip := "Search";
       disabled := false |}
  ∧ fi_frozen (filters self) = false
  ∧ sd_frozen (structure_drop self) = false
  ∧ pc_frozen (structure_page_chooser self) = false.

(** What the claims call a well-defined outcome: the command came back
    with a result set or with a message on display. *)
Definition well_defined (r : Result Outcome) : Prop :=
  ∃ o, r = Ret o.

(** A record without any of the four formula fields. *)
Definition lacks_formula (r : ResultRecord) : Prop :=
  ∀ f, f ∈ formula_fields → rec_attributes r !! f = None.

(** The pagination state of the spec: offset, continuation link and total
    count. *)
Definition pagination_state (self : Widget) : Z * option string * option Z :=
  (offset self, next_link (structure_page_chooser self),
   total_count (structure_page_chooser self)).

(** ** The methods outside the query path *)

Definition set_button_tooltip (t : string) (self : Widget) : Widget :=
  set_query_button
    {| description := description (query_button self);
       icon := icon (query_button self);
       tooltip := t;
       disabled := disabled (query_button self) |} self.

(** [self.database[1] is None or
    self.database[1].get("base_url", None) is None]. The dictionary holds
    strings: a base_url key that is present with the value [None] is
    outside this model. *)
Definition no_base_url (self : Widget) : bool :=
  match (database self).2 with
  | None => true
  | Some d =>
      match d !! "base_url" with
      | None => true
      | Some _ => false
      end
  end.

Section Subwidgets.

(** The [reset] methods of the three sub-widgets live outside this module:
    each is any function of the sub-widget's own state. *)
Variable fi_reset : FilterInputs -> FilterInputs.
Variable sd_reset : StructureDropdown -> StructureDropdown.
Variable pc_reset : ResultsPageChooser -> ResultsPageChooser.

(** The observer of the [database] trait. *)
Definition _on_database_select : M unit :=
  self ← get;
  (if no_base_url self then
     modify (set_button_disabled true);;
     modify (set_button_tooltip "Search - No database chosen");;
     modify (fun self => set_filters (fi_freeze (filters self)) self)
   else
     modify (set_button_disabled false);;
     modify (set_button_tooltip "Search");;
     modify (fun self => set_filters (fi_unfreeze (filters self)) self));;
  modify (fun self =>
            set_structure_drop (sd_reset (structure_drop self)) self).

(** Assigning the [database] trait runs its observer. *)
Definition select_database (d : string * option (gmap string string))
  : M unit :=
  modify (set_database d);;
  _on_database_select.

Definition reset : M unit :=
  modify (set_button_disabled false);;
  modify (set_button_tooltip "Search - No database chosen");;
  modify (fun self => set_filters (fi_reset (filters self)) self);;
  modify (fun self =>
            set_structure_drop (sd_reset (structure_drop self)) self);;
  modify (fun self =>
            set_structure_page_chooser
              (pc_reset (structure_page_chooser self)) self).

End Subwidgets.

(** The offset field after a command, from the offset before it. *)
Definition offset_after (c : Command) (o : Z) : Z :=
  match c with
  | AdvancePage (Offset n) => n
  | SubmitQuery | AdvancePage (Link _) => o
  end.

(** The offset field after a list of commands: the last integer a page
    advance asked for, if any. *)
Fixpoint last_offset (cs : list Command) (o : Z) : Z :=
  match cs with
  | [] => o
  | c :: cs => last_offset cs (offset_after c o)
  end.

(** A request built from parameters carries the widget's page limit, base
    URL and composed filter; a link request carries nothing of them. *)
Definition built_from (self : Widget) (r : Request) : Prop :=
  match r with
  | GetLink _ => True
  | GetQuery q =>
      limit q = page_limit self
      ∧ filter_ q = filter_expression (collect_value (filters self))
      ∧ database_base_url self = Ret (base_url q)
      ∧ format_ q = "json" ∧ email q = None ∧ fields q = None
  end.

(** ** Sample data *)

Definition sample_database : string * option (gmap string string) :=
  ("Sample", Some {[ "base_url" := "https://example.org/optimade" ]}).

(** A widget once a database is chosen and a filter typed. *)
Definition sample_widget : Widget :=
  set_database sample_database
    (set_filters {| collect_value := "nelements=2"; fi_frozen := false |}
       (__init__ false false None)).

Definition sample_record : ResultRecord :=
  {| rec_id := "1";
     rec_attributes := {[ "chemical_formula_descriptive" := "SiO2" ]} |}.

Definition bare_record : ResultRecord :=
  {| rec_id := "2"; rec_attributes := ∅ |}.

Definition sample_document (version : string) (data : list ResultRecord)
  : Document :=
  {| doc_data := Some data;
     doc_meta := Some {| api_version := Some version;
                         data_returned := Some (Z.of_nat (length data)) |};
     doc_links := Some {| links_next := None |};
     doc_errors := None |}.

Definition sample_error : ErrorObject :=
  {| title := "Bad Request"; detail := "invalid filter"; status := "400" |}.

(** The sample widget with pagination data recorded by an earlier query:
    seven results, and a link to the second page. *)
Definition recorded_widget : Widget :=
  set_structure_page_chooser
    {| total_count := Some 7%Z; next_link := Some "https://x/page2";
       pc_frozen := false |} sample_widget.

(** The sample widget in debug mode. *)
Definition debug_widget : Widget :=
  set_database sample_database
    (set_filters {| collect_value := "nelements=2"; fi_frozen := false |}
       (__init__ true false None)).

Definition error_document : Document :=
  {| doc_data := Some [sample_record]; doc_meta := None; doc_links := None;
     doc_errors := Some [sample_error] |}.

(** ** Symbolic execution of the methods *)

(** Evaluates the methods and the record updates, by need. *)
Ltac run_methods :=
  lazy beta iota zeta delta
    [execute retrieve_data _get_more_results try_finally restore_controls
     freeze unfreeze _query perform_optimade_query _update_structures
     mbind mret M_bind M_ret bind ret raise get modify lift
     set_button_text set_button_disabled queries_of set_offset set_filters
     set_query_button set_structure_drop set_error_or_status_messages
     set_structure_page_chooser log_request set_pagination_data set_options
     fi_freeze fi_unfreeze sd_freeze sd_unfreeze pc_freeze pc_unfreeze
     database_base_url pagination_state request_of offset_used
     controls_restored handle_errors getitem_data get_meta get_links
     from_option id
     fst snd debug embedded page_limit offset filters query_button
     structure_drop error_or_status_messages structure_page_chooser
     database sent collect_value fi_frozen options sd_frozen total_count
     next_link pc_frozen description icon tooltip disabled];
  cbn [doc_data doc_meta doc_links doc_errors api_version data_returned
       links_next].

Tactic Notation "run_methods" "in" hyp(H) :=
  lazy beta iota zeta delta
    [execute retrieve_data _get_more_results try_finally restore_controls
     freeze unfreeze _query perform_optimade_query _update_structures
     mbind mret M_bind M_ret bind ret raise get modify lift
     set_button_text set_button_disabled queries_of set_offset set_filters
     set_query_button set_structure_drop set_error_or_status_messages
     set_structure_page_chooser log_request set_pagination_data set_options
     fi_freeze fi_unfreeze sd_freeze sd_unfreeze pc_freeze pc_unfreeze
     database_base_url pagination_state request_of offset_used
     controls_restored handle_errors getitem_data get_meta get_links
     from_option id
     fst snd debug embedded page_limit offset filters query_button
     structure_drop error_or_status_messages structure_page_chooser
     database sent collect_value fi_frozen options sd_frozen total_count
     next_link pc_frozen description icon tooltip disabled] in H;
  cbn [doc_data doc_meta doc_links doc_errors api_version data_returned
       links_next] in H.

(** Names every attribute of the widget, so that the methods run on a
    record of variables. *)
Ltac open_widget w :=
  destruct w as [dbg emb lim off [fragment fi_fz] [descr icn tip dis]
                   [opts sd_fz] shown [total nxt pc_fz] [dbname dict] log].

(** One step past a point where evaluation is stuck: a hypothesis that
    gives the value is used, otherwise the cases are split. *)
Ltac stuck_step :=
  match goal with
  | H : ?x = _ |- context [match ?x with _ => _ end] =>
      tryif is_var x then fail else rewrite H
  | |- context [match ?x with _ => _ end] =>
      lazymatch x with
      | context [match _ with _ => _ end] => fail
      | _ => destruct x eqn:?
      end
  end.

Ltac walk := run_methods; repeat (stuck_step; run_methods).

(** Splits a hypothesis on the result of a lookup chain into the lookups
    that succeed. *)
Ltac split_result H :=
  run_methods in H;
  repeat match type of H with
         | context [match ?x with _ => _ end] =>
             lazymatch x with
             | context [match _ with _ => _ end] => fail
             | _ => destruct x eqn:?
             end
         end;
  try discriminate H; injection H as H; subst.

(** Splits [handle_errors (Decoded doc) debug = Ret None] into the cases of
    an absent or empty [errors]. *)
Ltac split_errors H :=
  run_methods in H;
  destruct (doc_errors _) as [[|? ?]|] eqn:?;
  [ | match type of H with context [if ?b then _ else _] => destruct b end;
      discriminate H | ];
  clear H.

(** Evaluates the methods outside the query path as well. *)
Ltac walk_all :=
  unfold select_database, _on_database_select, reset, no_base_url,
    set_button_tooltip, set_database, built_from;
  walk.

(** * Properties *)

(** ** FilterBuilder *)

Lemma filter_expression_nonempty (X : string) :
  X ≠ EmptyString →
  filter_expression X = "( " +:+ X +:+ " ) AND ( " +:+ add_to_filter +:+ " )".
Proof. destruct X; [congruence | reflexivity]. Qed.

(** C3, as the code has it: the empty fragment composes to the exclusion
    predicate alone, and every non-empty fragment X, a blank one included,
    composes to "( X ) AND ( exclusion )". *)
Theorem filter_expression_spec (X : string) :
  (X = EmptyString → filter_expression X = add_to_filter)
  ∧ (X ≠ EmptyString →
     filter_expression X
     = "( " +:+ X +:+ " ) AND ( " +:+ add_to_filter +:+ " )").
Proof.
  split; [intros ->; reflexivity | apply filter_expression_nonempty].
Qed.

Lemma filter_expression_spec_witness :
  " " ≠ EmptyString
  ∧ filter_expression " "
    = "( " +:+ " " +:+ " ) AND ( " +:+ add_to_filter +:+ " )".
Proof.
  split; [discriminate |].
  apply (proj2 (filter_expression_spec " ")). discriminate.
Defined.

(** C3 as stated fails: a blank fragment is not treated as empty. *)
Lemma blank_fragment_is_composed :
  filter_expression " " ≠ add_to_filter
  ∧ filter_expression " "
    = "(   ) AND ( " +:+ add_to_filter +:+ " )".
Proof. split; [discriminate | reflexivity]. Qed.

(** ** The finally block *)

(** C10: whatever a command's outcome, result set, early return after a
    message, or exception, it leaves the button in its Search state and
    every component unfrozen. *)
Theorem controls_restored_on_every_exit net c w :
  controls_restored (execute net c w).2.
Proof.
  open_widget w.
  destruct c as [|[n|url]]; walk; auto.
Qed.

(** ** The request a command sends *)

Lemma execute_sends net c w req :
  request_of c w = Ret req →
  sent (execute net c w).2 = (sent w ++ [req])%list.
Proof.
  open_widget w. intros H.
  destruct c as [|[n|url]]; split_result H; walk; reflexivity.
Qed.

(** C5: a page advance to a continuation link GETs that link verbatim,
    whatever the widget's filter, page limit and offset; a page advance to
    an integer builds the request from the base URL with the composed
    filter, the page limit and that integer as offset. *)
Theorem page_advance_request net w :
  (∀ url,
     sent (_get_more_results net (Link url) w).2
     = (sent w ++ [GetLink url])%list)
  ∧ (∀ n base,
       database_base_url w = Ret base →
       sent (_get_more_results net (Offset n) w).2
       = (sent w ++
          [GetQuery
             {| base_url := base;
                filter_ := filter_expression (collect_value (filters w));
                format_ := "json"; email := None; fields := None;
                limit := page_limit w; q_offset := n |}])%list).
Proof.
  split.
  - intros url. apply (execute_sends net (AdvancePage (Link url))).
    reflexivity.
  - intros n base Hb.
    apply (execute_sends net (AdvancePage (Offset n))).
    cbn [request_of]. rewrite Hb. reflexivity.
Qed.

Lemma page_advance_request_witness :
  database_base_url sample_widget = Ret "https://example.org/optimade"
  ∧ sent (_get_more_results (fun _ => NotJson) (Offset 20) sample_widget).2
    = [GetQuery
         {| base_url := "https://example.org/optimade";
            filter_ := filter_expression "nelements=2";
            format_ := "json"; email := None; fields := None;
            limit := 10; q_offset := 20 |}].
Proof.
  split; [reflexivity |].
  apply (proj2 (page_advance_request (fun _ => NotJson) sample_widget) 20%Z
           "https://example.org/optimade").
  reflexivity.
Defined.

(** ** The offset of a new query *)

(** What no command changes, and the one write to [offset]. *)
Lemma execute_frame net c w :
  debug (execute net c w).2 = debug w
  ∧ page_limit (execute net c w).2 = page_limit w
  ∧ collect_value (filters (execute net c w).2) = collect_value (filters w)
  ∧ database (execute net c w).2 = database w
  ∧ offset (execute net c w).2 = offset_used c w.
Proof.
  open_widget w.
  destruct c as [|[n|url]]; walk; auto.
Qed.

(** Nothing in [retrieve_data] writes [offset]: a new query after a page
    advance to [n] is built with [n]. *)
Lemma new_query_after_advance net w n base :
  database_base_url w = Ret base →
  sent (session net [AdvancePage (Offset n); SubmitQuery] w)
  = (sent w ++ [GetQuery (queries_of (set_offset n w) base);
                GetQuery (queries_of (set_offset n w) base)])%list.
Proof.
  intros Hb. cbn [session].
  destruct (execute_frame net (AdvancePage (Offset n)) w)
    as (_ & Hlim & Hfil & Hdb & Hoff).
  pose proof (execute_sends net (AdvancePage (Offset n)) w
                (GetQuery (queries_of (set_offset n w) base))) as Hs1.
  cbn [request_of] in Hs1. rewrite Hb in Hs1. specialize (Hs1 eq_refl).
  set (w1 := (execute net (AdvancePage (Offset n)) w).2) in *.
  rewrite (execute_sends net SubmitQuery w1 (GetQuery (queries_of w1 base))).
  - rewrite Hs1, <- app_assoc. unfold queries_of.
    rewrite Hfil, Hoff, Hlim. reflexivity.
  - cbn [request_of]. unfold database_base_url in *. rewrite Hdb.
    destruct (database w).2 as [d|]; [|discriminate Hb].
    destruct (d !! "base_url"); [|discriminate Hb].
    injection Hb as ->. reflexivity.
Qed.

(** C2 at its failing input: on a widget at offset 0, after a page advance
    to offset 10 the new query is sent with offset 10 again, whatever the
    service replies. *)
Theorem new_query_keeps_stale_offset net :
  offset sample_widget = 0%Z
  ∧ sent (session net [AdvancePage (Offset 10); SubmitQuery] sample_widget)
    = [GetQuery
         {| base_url := "https://example.org/optimade";
            filter_ := filter_expression "nelements=2";
            format_ := "json"; email := None; fields := None;
            limit := 10; q_offset := 10 |};
       GetQuery
         {| base_url := "https://example.org/optimade";
            filter_ := filter_expression "nelements=2";
            format_ := "json"; email := None; fields := None;
            limit := 10; q_offset := 10 |}].
Proof.
  split; [reflexivity |].
  apply (new_query_after_advance net sample_widget 10%Z
           "https://example.org/optimade").
  reflexivity.
Qed.

(** ** Transport failures *)

(** A request built from parameters never raises: [perform_optimade_query]
    turns a failure on the wire into the transport-failed marker and a body
    that is not JSON into the decode-failed marker. *)
Lemma query_by_parameters_returns net w base :
  database_base_url w = Ret base →
  (_query net None w).1
  = Ret match net (GetQuery (queries_of w base)) with
        | NetFail text => TransportFailed text
        | NotJson => DecodeFailed
        | JsonBody doc => Decoded doc
        end.
Proof.
  open_widget w. intros Hb. split_result Hb. walk; reflexivity.
Qed.

(** A link GET whose body is not JSON gives the decode-failed marker, which
    [handle_errors] reports with an empty list of structured errors. *)
Lemma query_by_link_not_json net w url :
  net (GetLink url) = NotJson →
  (_query net (Some url) w).1 = Ret DecodeFailed
  ∧ handle_errors DecodeFailed (debug w)
    = Ret (Some (ApiError ["Unable to decode response"] None)).
Proof. intros H. split; [run_methods; rewrite H|]; reflexivity. Qed.

(** C7 at its failing input: a link GET that fails on the wire is raised
    out of [_query], and out of the page advance that called it; no
    transport-failed marker is returned. *)
Theorem link_get_failure_raises net w url text :
  net (GetLink url) = NetFail text →
  (_query net (Some url) w).1 = Raise (RequestException text)
  ∧ (_get_more_results net (Link url) w).1 = Raise (RequestException text).
Proof.
  open_widget w. intros H. split; walk; reflexivity.
Qed.

Lemma link_get_failure_raises_witness :
  (fun _ : Request => NetFail "Connection refused") (GetLink "https://x/page2")
  = NetFail "Connection refused"
  ∧ (_get_more_results (fun _ => NetFail "Connection refused")
       (Link "https://x/page2") sample_widget).1
    = Raise (RequestException "Connection refused").
Proof.
  split; [reflexivity |].
  apply (proj2 (link_get_failure_raises (fun _ => NetFail "Connection refused")
                  sample_widget "https://x/page2" "Connection refused"
                  eq_refl)).
Defined.

(** C8, as the code has it: when the GET of a new query or of a page
    advance to an integer fails on the wire, the transport error is shown,
    the dropdown, the continuation link and the total count are as before,
    and the offset is the one the request was built with: unchanged for a
    new query, the requested integer for a page advance. *)
Theorem transport_failure_outcome net c w queries text :
  request_of c w = Ret (GetQuery queries) →
  net (GetQuery queries) = NetFail text →
  (execute net c w).1 = Ret (Reported (TransportError text))
  ∧ error_or_status_messages (execute net c w).2 = Some (TransportError text)
  ∧ options (structure_drop (execute net c w).2) = options (structure_drop w)
  ∧ pagination_state (execute net c w).2
    = (offset_used c w, next_link (structure_page_chooser w),
       total_count (structure_page_chooser w)).
Proof.
  open_widget w. intros Hreq Hnet.
  destruct c as [|[n|url]]; split_result Hreq; walk; auto.
Qed.

Lemma transport_failure_outcome_witness :
  request_of SubmitQuery sample_widget
  = Ret (GetQuery (queries_of sample_widget "https://example.org/optimade"))
  ∧ (fun _ : Request => NetFail "timed out")
      (GetQuery (queries_of sample_widget "https://example.org/optimade"))
    = NetFail "timed out"
  ∧ (execute (fun _ => NetFail "timed out") SubmitQuery sample_widget).1
    = Ret (Reported (TransportError "timed out")).
Proof.
  split; [reflexivity | split; [reflexivity |]].
  apply (transport_failure_outcome (fun _ => NetFail "timed out") SubmitQuery
           sample_widget
           (queries_of sample_widget "https://example.org/optimade")
           "timed out" eq_refl eq_refl).
Defined.

(** C8 as stated fails: a page advance to offset 20 whose GET fails shows
    the transport error, yet the offset is 20 afterwards and was 0 before. *)
Lemma failed_advance_moves_offset :
  (execute (fun _ => NetFail "timed out") (AdvancePage (Offset 20))
     sample_widget).1
  = Ret (Reported (TransportError "timed out"))
  ∧ pagination_state
      (execute (fun _ => NetFail "timed out") (AdvancePage (Offset 20))
         sample_widget).2
    ≠ pagination_state sample_widget.
Proof. split; [reflexivity | discriminate]. Qed.

(** ** Errors reported by the service *)

(** C4: a reply with a non-empty [errors] collection is never a success,
    whatever its [data]: no record reaches the dropdown and the pagination
    data is not recorded; with debug off the error message is shown and the
    command returns, with debug on the strict mode raises instead. *)
Theorem errors_take_precedence net c w req doc e es :
  request_of c w = Ret req →
  net req = JsonBody doc →
  doc_errors doc = Some (e :: es) →
  (execute net c w).1 ≠ Ret Completed
  ∧ options (structure_drop (execute net c w).2) = options (structure_drop w)
  ∧ pagination_state (execute net c w).2
    = (offset_used c w, next_link (structure_page_chooser w),
       total_count (structure_page_chooser w))
  ∧ (debug w = false →
     (execute net c w).1
     = Ret (Reported (ApiError (error_message <$> e :: es) None))
     ∧ error_or_status_messages (execute net c w).2
       = Some (ApiError (error_message <$> e :: es) None))
  ∧ (debug w = true →
     (execute net c w).1 = Raise (ProcessingFault (error_message <$> e :: es))).
Proof.
  open_widget w. intros Hreq Hnet Herr.
  destruct c as [|[n|url]]; split_result Hreq; walk;
    repeat split; auto; discriminate.
Qed.

Lemma errors_take_precedence_witness :
  let doc :=
    {| doc_data := Some [sample_record]; doc_meta := None; doc_links := None;
       doc_errors := Some [sample_error] |} in
  request_of SubmitQuery sample_widget
  = Ret (GetQuery (queries_of sample_widget "https://example.org/optimade"))
  ∧ doc_errors doc = Some [sample_error]
  ∧ debug sample_widget = false
  ∧ (execute (fun _ => JsonBody doc) SubmitQuery sample_widget).1
    = Ret (Reported (ApiError ["Bad Request: invalid filter (400)"] None)).
Proof.
  intros doc.
  split; [reflexivity | split; [reflexivity | split; [reflexivity |]]].
  apply (proj1 (proj1 (proj2 (proj2 (proj2
           (errors_take_precedence (fun _ => JsonBody doc) SubmitQuery
              sample_widget
              (GetQuery (queries_of sample_widget
                           "https://example.org/optimade"))
              doc sample_error [] eq_refl eq_refl eq_refl)))) eq_refl)).
Defined.

(** C4 as stated fails: in debug mode a reply with a non-empty [errors]
    collection is raised as a fatal fault and no message is shown; and a
    page advance to offset 20 answered with errors has moved the offset,
    which was 0 before. *)
Lemma errors_raised_in_debug_mode :
  (execute (fun _ => JsonBody error_document) SubmitQuery debug_widget).1
  = Raise (ProcessingFault ["Bad Request: invalid filter (400)"])
  ∧ ¬ well_defined
        (execute (fun _ => JsonBody error_document) SubmitQuery
           debug_widget).1
  ∧ error_or_status_messages
      (execute (fun _ => JsonBody error_document) SubmitQuery
         debug_widget).2
    = None
  ∧ pagination_state
      (execute (fun _ => JsonBody error_document) (AdvancePage (Offset 20))
         sample_widget).2
    ≠ pagination_state sample_widget.
Proof.
  split; [reflexivity |]. split; [|split; [reflexivity | discriminate]].
  intros [o Ho]. discriminate Ho.
Qed.

(** ** The version gate *)

Lemma validate_api_version_samples :
  validate_api_version "0.10.1" = Raise (ApiVersionError "0.10.1")
  ∧ validate_api_version "1.0.0" = Ret tt
  ∧ validate_api_version "1.2.0" = Ret tt.
Proof. repeat split. Qed.

Lemma label_structures_raises data ex :
  label_structures data = Raise ex →
  ∃ r, ex = BadResource r formula_fields bad_resource_msg
       ∧ r ∈ data ∧ formula_of r = None.
Proof.
  induction data as [|entry rest IH]; cbn [label_structures];
    [discriminate |].
  destruct (formula_of entry) as [formula|] eqn:Hf.
  - destruct (label_structures rest) as [structures|ex'];
      [discriminate |].
    intros [= ->]. destruct (IH eq_refl) as (r & -> & Hin & Hr).
    exists r. split; [reflexivity |]. split; [|exact Hr].
    apply list_elem_of_further; exact Hin.
  - intros [= <-]. exists entry. split; [reflexivity |].
    split; [apply list_elem_of_here | exact Hf].
Qed.

(** C6, as the code has it: a new query whose reply passes [handle_errors]
    has its version checked, 0.10.1 raises the version error and 1.0.0 and
    1.2.0 pass the gate, so that with labelled data the query succeeds; a
    page advance never ends in a version error, as it checks none. *)
Theorem version_gate_on_new_query net w base doc :
  database_base_url w = Ret base →
  net (GetQuery (queries_of w base)) = JsonBody doc →
  handle_errors (Decoded doc) (debug w) = Ret None →
  (api_version (get_meta (Decoded doc)) = Some "0.10.1" →
   (retrieve_data net w).1 = Raise (ApiVersionError "0.10.1"))
  ∧ (∀ v data structures,
       v = "1.0.0" ∨ v = "1.2.0" →
       api_version (get_meta (Decoded doc)) = Some v →
       doc_data doc = Some data →
       label_structures data = Ret structures →
       (retrieve_data net w).1 = Ret Completed)
  ∧ (∀ target version,
       (_get_more_results net target w).1 ≠ Raise (ApiVersionError version)).
Proof.
  open_widget w. intros Hb Hnet Herr.
  destruct validate_api_version_samples as (V0 & V1 & V2).
  split_result Hb. run_methods in Hnet. split; [|split].
  - intros Hv. run_methods in Hv. split_errors Herr; walk; reflexivity.
  - intros v data structures Hv Hver Hdata Hlab. run_methods in Hver.
    split_errors Herr; destruct Hv as [-> | ->]; walk; reflexivity.
  - clear Hnet Herr. intros [n|url] version; walk; try discriminate.
    all: match goal with
         | H : label_structures _ = Raise _ |- _ =>
             apply label_structures_raises in H as (r & -> & _);
             discriminate
         end.
Qed.

Lemma version_gate_on_new_query_witness :
  let doc := sample_document "0.10.1" [sample_record] in
  database_base_url sample_widget = Ret "https://example.org/optimade"
  ∧ handle_errors (Decoded doc) (debug sample_widget) = Ret None
  ∧ api_version (get_meta (Decoded doc)) = Some "0.10.1"
  ∧ (retrieve_data (fun _ => JsonBody doc) sample_widget).1
    = Raise (ApiVersionError "0.10.1").
Proof.
  intros doc.
  split; [reflexivity | split; [reflexivity | split; [reflexivity |]]].
  apply (proj1 (version_gate_on_new_query (fun _ => JsonBody doc)
                  sample_widget "https://example.org/optimade" doc
                  eq_refl eq_refl eq_refl) eq_refl).
Defined.

(** C6 as stated fails: a page of API version 0.10.1 reached by a page
    advance is a success, its record is put in the dropdown. *)
Lemma advance_skips_version_gate :
  let doc := sample_document "0.10.1" [sample_record] in
  validate_api_version "0.10.1" = Raise (ApiVersionError "0.10.1")
  ∧ (execute (fun _ => JsonBody doc) (AdvancePage (Offset 10))
       sample_widget).1
    = Ret Completed
  ∧ options
      (structure_drop
         (execute (fun _ => JsonBody doc) (AdvancePage (Offset 10))
            sample_widget).2)
    = [("SiO2 (id=1)", sample_record)].
Proof. repeat split. Qed.

(** ** Recording the pagination data *)

(** Whenever a command completes, the pagination data is as recorded from
    the reply. *)
Lemma recorded_when_completed net c w req doc :
  request_of c w = Ret req →
  net req = JsonBody doc →
  (execute net c w).1 = Ret Completed →
  next_link (structure_page_chooser (execute net c w).2)
  = links_next (get_links (Decoded doc))
  ∧ total_count (structure_page_chooser (execute net c w).2)
    = match c with
      | SubmitQuery =>
          Some (default 0%Z (data_returned (get_meta (Decoded doc))))
      | AdvancePage _ => total_count (structure_page_chooser w)
      end
  ∧ offset (execute net c w).2 = offset_used c w.
Proof.
  open_widget w. intros Hreq Hnet.
  destruct c as [|[n|url]]; split_result Hreq; walk;
    intros; try discriminate; auto.
Qed.

(** A reply that passes the error and version checks and whose records can
    all be labelled makes the command complete. *)
Lemma completes_on_labelled_data net c w req doc data structures :
  request_of c w = Ret req →
  net req = JsonBody doc →
  handle_errors (Decoded doc) (debug w) = Ret None →
  (c = SubmitQuery →
   validate_api_version
     (default EmptyString (api_version (get_meta (Decoded doc)))) = Ret tt) →
  doc_data doc = Some data →
  label_structures data = Ret structures →
  (execute net c w).1 = Ret Completed.
Proof.
  open_widget w. intros Hreq Hnet Herr Hver Hdata Hlab.
  destruct c as [|[n|url]]; split_result Hreq;
    try (specialize (Hver eq_refl); run_methods in Hver);
    split_errors Herr; walk; reflexivity.
Qed.

(** C9: a page advance whose reply passes the checks succeeds, records the
    continuation link of the page, absent when the page has none, and keeps
    the total count; a new query whose reply passes the checks succeeds,
    records the total count from [meta.data_returned], 0 when absent, and
    forgets the link recorded before: the link is that of the reply, none
    when the reply has none. Neither writes the offset after the request.
    The same holds of every command that completes. *)
Theorem pagination_recorded_on_success net c w req doc :
  request_of c w = Ret req →
  net req = JsonBody doc →
  (∀ data structures,
     handle_errors (Decoded doc) (debug w) = Ret None →
     (c = SubmitQuery →
      validate_api_version
        (default EmptyString (api_version (get_meta (Decoded doc))))
      = Ret tt) →
     doc_data doc = Some data →
     label_structures data = Ret structures →
     (execute net c w).1 = Ret Completed)
  ∧ ((execute net c w).1 = Ret Completed →
     next_link (structure_page_chooser (execute net c w).2)
     = links_next (get_links (Decoded doc))
     ∧ total_count (structure_page_chooser (execute net c w).2)
       = match c with
         | SubmitQuery =>
             Some (default 0%Z (data_returned (get_meta (Decoded doc))))
         | AdvancePage _ => total_count (structure_page_chooser w)
         end
     ∧ offset (execute net c w).2 = offset_used c w).
Proof.
  intros Hreq Hnet. split.
  - intros data structures Herr Hver Hdata Hlab.
    exact (completes_on_labelled_data net c w req doc data structures
             Hreq Hnet Herr Hver Hdata Hlab).
  - exact (recorded_when_completed net c w req doc Hreq Hnet).
Qed.

Lemma pagination_recorded_on_success_witness :
  let w := recorded_widget in
  let first_page := sample_document "1.0.0" [sample_record] in
  let next_page :=
    {| doc_data := Some [sample_record]; doc_meta := None;
       doc_links := Some {| links_next := Some "https://x/page3" |};
       doc_errors := None |} in
  (request_of SubmitQuery w
   = Ret (GetQuery (queries_of w "https://example.org/optimade"))
   ∧ (execute (fun _ => JsonBody first_page) SubmitQuery w).1 = Ret Completed
   ∧ next_link
       (structure_page_chooser
          (execute (fun _ => JsonBody first_page) SubmitQuery w).2)
     = None
   ∧ total_count
       (structure_page_chooser
          (execute (fun _ => JsonBody first_page) SubmitQuery w).2)
     = Some 1%Z)
  ∧ (request_of (AdvancePage (Link "https://x/page2")) w
     = Ret (GetLink "https://x/page2")
     ∧ (execute (fun _ => JsonBody next_page)
          (AdvancePage (Link "https://x/page2")) w).1 = Ret Completed
     ∧ next_link
         (structure_page_chooser
            (execute (fun _ => JsonBody next_page)
               (AdvancePage (Link "https://x/page2")) w).2)
       = Some "https://x/page3"
     ∧ total_count
         (structure_page_chooser
            (execute (fun _ => JsonBody next_page)
               (AdvancePage (Link "https://x/page2")) w).2)
       = Some 7%Z).
Proof.
  intros w first_page next_page. split.
  - destruct (pagination_recorded_on_success
                (fun _ => JsonBody first_page) SubmitQuery w
                (GetQuery (queries_of w "https://example.org/optimade"))
                first_page eq_refl eq_refl) as [Hdone Hrec].
    pose proof (Hdone [sample_record] [("SiO2 (id=1)", sample_record)]
                  eq_refl (fun _ => eq_refl) eq_refl eq_refl) as Hc.
    destruct (Hrec Hc) as (Hnext & Htotal & _).
    split; [reflexivity |]. split; [exact Hc |].
    split; [exact Hnext | exact Htotal].
  - destruct (pagination_recorded_on_success
                (fun _ => JsonBody next_page)
                (AdvancePage (Link "https://x/page2")) w
                (GetLink "https://x/page2") next_page eq_refl eq_refl)
      as [Hdone Hrec].
    assert (Hc : (execute (fun _ => JsonBody next_page)
                    (AdvancePage (Link "https://x/page2")) w).1
                 = Ret Completed).
    { apply (Hdone [sample_record] [("SiO2 (id=1)", sample_record)]);
        [reflexivity | intros H; discriminate H | reflexivity | reflexivity]. }
    destruct (Hrec Hc) as (Hnext & Htotal & _).
    split; [reflexivity |]. split; [exact Hc |].
    split; [exact Hnext | exact Htotal].
Defined.

(** ** Records without a formula *)

Lemma formula_of_None (r : ResultRecord) :
  formula_of r = None ↔ lacks_formula r.
Proof.
  unfold formula_of, lacks_formula, formula_fields. split.
  - intros H f Hf.
    destruct (rec_attributes r !! "chemical_formula_descriptive") eqn:H1;
      [discriminate |].
    destruct (rec_attributes r !! "chemical_formula_reduced") eqn:H2;
      [discriminate |].
    destruct (rec_attributes r !! "chemical_formula_anonymous") eqn:H3;
      [discriminate |].
    set_unfold. destruct Hf as [-> | [-> | [-> | [-> | []]]]]; assumption.
  - intros H.
    rewrite (H "chemical_formula_descriptive") by set_solver.
    rewrite (H "chemical_formula_reduced") by set_solver.
    rewrite (H "chemical_formula_anonymous") by set_solver.
    rewrite (H "chemical_formula_hill") by set_solver.
    reflexivity.
Qed.

(** The loop labels every record when each has a formula. *)
Lemma label_structures_returns data :
  (∀ r, r ∈ data → ¬ lacks_formula r) →
  ∃ structures, label_structures data = Ret structures
                ∧ length structures = length data.
Proof.
  induction data as [|entry rest IH]; intros Hall.
  - exists []. split; reflexivity.
  - cbn [label_structures].
    destruct (formula_of entry) as [formula|] eqn:Hf.
    + destruct IH as (structures & -> & Hlen).
      { intros r Hr. apply Hall. apply list_elem_of_further; exact Hr. }
      eexists. split; [reflexivity |]. cbn. rewrite Hlen. reflexivity.
    + exfalso. apply (Hall entry); [apply list_elem_of_here |].
      apply formula_of_None; exact Hf.
Qed.

(** The loop raises when some record has no formula. *)
Lemma label_structures_lacking data r :
  r ∈ data → lacks_formula r →
  ∃ ex, label_structures data = Raise ex.
Proof.
  intros Hin Hr.
  destruct (label_structures data) as [structures|ex] eqn:Hl;
    [|exists ex; reflexivity].
  exfalso. revert structures Hl.
  induction Hin as [r rest | r entry rest Hin IH]; intros structures;
    cbn [label_structures].
  - apply formula_of_None in Hr. rewrite Hr. discriminate.
  - destruct (formula_of entry); [|discriminate].
    destruct (label_structures rest) as [structures'|]; [|discriminate].
    intros _. exact (IH Hr structures' eq_refl).
Qed.

(** What a command does with the data of a reply that passed the error
    and version checks. *)
Lemma execute_on_data net c w req doc data :
  request_of c w = Ret req →
  net req = JsonBody doc →
  handle_errors (Decoded doc) (debug w) = Ret None →
  (c = SubmitQuery →
   validate_api_version
     (default EmptyString (api_version (get_meta (Decoded doc)))) = Ret tt) →
  doc_data doc = Some data →
  match label_structures data with
  | Ret structures =>
      (execute net c w).1 = Ret Completed
      ∧ options (structure_drop (execute net c w).2) = structures
  | Raise ex =>
      (execute net c w).1 = Raise ex
      ∧ options (structure_drop (execute net c w).2)
        = options (structure_drop w)
      ∧ error_or_status_messages (execute net c w).2
        = match c with
          | SubmitQuery => None
          | AdvancePage _ => error_or_status_messages w
          end
  end.
Proof.
  open_widget w. intros Hreq Hnet Herr Hver Hdata.
  destruct c as [|[n|url]]; split_result Hreq;
    try (specialize (Hver eq_refl); run_methods in Hver);
    split_errors Herr; walk; auto.
Qed.

(** C1, as the code has it: a reply that passes the error and version
    checks ends in a result set when every record has one of the four
    formula fields; when some record has none, the command raises
    [BadResource] for such a record to its caller, shows no message and
    leaves the dropdown as it was. *)
Theorem outcome_of_records net c w req doc data :
  request_of c w = Ret req →
  net req = JsonBody doc →
  handle_errors (Decoded doc) (debug w) = Ret None →
  (c = SubmitQuery →
   validate_api_version
     (default EmptyString (api_version (get_meta (Decoded doc)))) = Ret tt) →
  doc_data doc = Some data →
  ((∀ r, r ∈ data → ¬ lacks_formula r) →
   (execute net c w).1 = Ret Completed
   ∧ label_structures data
     = Ret (options (structure_drop (execute net c w).2)))
  ∧ (∀ r, r ∈ data → lacks_formula r →
     ∃ r',
       r' ∈ data ∧ lacks_formula r'
       ∧ (execute net c w).1
         = Raise (BadResource r' formula_fields bad_resource_msg)
       ∧ ¬ well_defined (execute net c w).1
       ∧ options (structure_drop (execute net c w).2)
         = options (structure_drop w)
       ∧ error_or_status_messages (execute net c w).2
         = match c with
           | SubmitQuery => None
           | AdvancePage _ => error_or_status_messages w
           end).
Proof.
  intros Hreq Hnet Herr Hver Hdata.
  pose proof (execute_on_data net c w req doc data Hreq Hnet Herr Hver Hdata)
    as Hrun.
  split.
  - intros Hall.
    destruct (label_structures_returns data Hall) as (structures & Hl & _).
    rewrite Hl in Hrun |- *. destruct Hrun as [-> ->]. split; reflexivity.
  - intros r Hin Hr.
    destruct (label_structures_lacking data r Hin Hr) as (ex & Hl).
    rewrite Hl in Hrun. destruct Hrun as (Hout & Hopts & Hmsg).
    destruct (label_structures_raises data ex Hl) as (r' & -> & Hin' & Hf).
    exists r'. split; [exact Hin' |].
    split; [apply formula_of_None; exact Hf |].
    split; [exact Hout |]. split; [|split; assumption].
    rewrite Hout. intros [o Ho]. discriminate Ho.
Qed.

Lemma outcome_of_records_witness :
  let doc := sample_document "1.0.0" [sample_record; bare_record] in
  request_of SubmitQuery sample_widget
  = Ret (GetQuery (queries_of sample_widget "https://example.org/optimade"))
  ∧ handle_errors (Decoded doc) (debug sample_widget) = Ret None
  ∧ validate_api_version
      (default EmptyString (api_version (get_meta (Decoded doc)))) = Ret tt
  ∧ bare_record ∈ [sample_record; bare_record]
  ∧ lacks_formula bare_record
  ∧ ∃ r',
      (execute (fun _ => JsonBody doc) SubmitQuery sample_widget).1
      = Raise (BadResource r' formula_fields bad_resource_msg).
Proof.
  intros doc.
  assert (Hin : bare_record ∈ [sample_record; bare_record])
    by (apply list_elem_of_further, list_elem_of_here).
  assert (Hbare : lacks_formula bare_record)
    by (apply formula_of_None; reflexivity).
  split; [reflexivity | split; [reflexivity | split; [reflexivity |]]].
  split; [exact Hin | split; [exact Hbare |]].
  destruct (proj2 (outcome_of_records (fun _ => JsonBody doc) SubmitQuery
                     sample_widget
                     (GetQuery (queries_of sample_widget
                                  "https://example.org/optimade"))
                     doc [sample_record; bare_record]
                     eq_refl eq_refl eq_refl (fun _ => eq_refl) eq_refl)
              bare_record Hin Hbare)
    as (r' & _ & _ & Hout & _).
  exists r'. exact Hout.
Defined.

(** C1 as stated fails: a reply with a record that has none of the formula
    fields makes the new query raise [BadResource] to its caller; the
    outcome is neither a result set nor a message on display. *)
Lemma bare_record_raises :
  let doc := sample_document "1.0.0" [sample_record; bare_record] in
  (execute (fun _ => JsonBody doc) SubmitQuery sample_widget).1
  = Raise (BadResource bare_record formula_fields bad_resource_msg)
  ∧ ¬ well_defined
        (execute (fun _ => JsonBody doc) SubmitQuery sample_widget).1
  ∧ error_or_status_messages
      (execute (fun _ => JsonBody doc) SubmitQuery sample_widget).2
    = None.
Proof.
  intros doc. split; [reflexivity |]. split; [|reflexivity].
  intros [o Ho]. discriminate Ho.
Qed.

(** * Further properties of the code *)

(** ** The formula of a record *)

(** The label takes the first of the four formula fields the record has, in
    the order descriptive, reduced, anonymous, hill. *)
Theorem formula_is_first_present (r : ResultRecord) (f : string) :
  formula_of r = Some f ↔
  ∃ before field after,
    formula_fields = (before ++ field :: after)%list
    ∧ rec_attributes r !! field = Some f
    ∧ ∀ g, g ∈ before → rec_attributes r !! g = None.
Proof.
  unfold formula_of, formula_fields. split.
  - intros H.
    destruct (rec_attributes r !! "chemical_formula_descriptive") eqn:H1.
    { exists [], "chemical_formula_descriptive". eexists.
      split; [reflexivity |]. split; [congruence | set_solver]. }
    destruct (rec_attributes r !! "chemical_formula_reduced") eqn:H2.
    { exists ["chemical_formula_descriptive"], "chemical_formula_reduced".
      eexists. split; [reflexivity |]. split; [congruence |].
      intros g Hg. set_unfold. destruct Hg as [-> | []]. exact H1. }
    destruct (rec_attributes r !! "chemical_formula_anonymous") eqn:H3.
    { exists ["chemical_formula_descriptive"; "chemical_formula_reduced"],
        "chemical_formula_anonymous".
      eexists. split; [reflexivity |]. split; [congruence |].
      intros g Hg. set_unfold. destruct Hg as [-> | [-> | []]]; assumption. }
    exists ["chemical_formula_descriptive"; "chemical_formula_reduced";
            "chemical_formula_anonymous"], "chemical_formula_hill", [].
    split; [reflexivity |]. split; [exact H |].
    intros g Hg. set_unfold.
    destruct Hg as [-> | [-> | [-> | []]]]; assumption.
  - intros (before & field & after & Hsplit & Hf & Hbefore).
    destruct before as [|b1 [|b2 [|b3 [|b4 rest]]]];
      cbn in Hsplit; simplify_eq.
    + rewrite Hf. reflexivity.
    + rewrite (Hbefore "chemical_formula_descriptive") by set_solver.
      rewrite Hf. reflexivity.
    + rewrite (Hbefore "chemical_formula_descriptive") by set_solver.
      rewrite (Hbefore "chemical_formula_reduced") by set_solver.
      rewrite Hf. reflexivity.
    + rewrite (Hbefore "chemical_formula_descriptive") by set_solver.
      rewrite (Hbefore "chemical_formula_reduced") by set_solver.
      rewrite (Hbefore "chemical_formula_anonymous") by set_solver.
      exact Hf.
    + destruct rest; discriminate.
Qed.

(** ** The dropdown entries *)



(** The loop stops at the first record without a formula: it raises
    [BadResource] for that record, naming the four fields, exactly when the
    data has such a record after a run of records that all have one. *)
Theorem first_bare_record_is_raised (data : list ResultRecord) (ex : Exn) :
  label_structures data = Raise ex ↔
  ∃ before r after,
    data = (before ++ r :: after)%list
    ∧ Forall (λ x, ¬ lacks_formula x) before
    ∧ lacks_formula r
    ∧ ex = BadResource r formula_fields bad_resource_msg.
Proof.
  split.
  - induction data as [|entry rest IH]; cbn [label_structures];
      [discriminate |].
    destruct (formula_of entry) as [formula|] eqn:Hf.
    + destruct (label_structures rest) as [tail|ex']; [discriminate |].
      intros [= ->].
      destruct (IH eq_refl) as (before & r & after & -> & Hall & Hr & ->).
      exists (entry :: before), r, after.
      split; [reflexivity |]. split; [|split; [exact Hr | reflexivity]].
      constructor; [|exact Hall].
      intros Hlack. apply formula_of_None in Hlack. congruence.
    + intros [= <-]. exists [], entry, rest.
      split; [reflexivity |]. split; [constructor |].
      split; [apply formula_of_None; exact Hf | reflexivity].
  - intros (before & r & after & -> & Hall & Hr & ->).
    induction Hall as [|x before Hx Hall IH]; cbn [app label_structures].
    + apply formula_of_None in Hr. rewrite Hr. reflexivity.
    + destruct (formula_of x) as [formula|] eqn:Hf.
      * rewrite IH. reflexivity.
      * exfalso. apply Hx. apply formula_of_None. exact Hf.
Qed.

(** [_update_structures] is all or nothing: when some record of the data
    has no formula it raises and leaves the whole widget as it was, the
    dropdown included, however many records before it were labelled. *)
Theorem update_structures_all_or_nothing (data : list ResultRecord)
  (r : ResultRecord) (w : Widget) :
  r ∈ data → lacks_formula r →
  (_update_structures data w).2 = w
  ∧ ∃ r', lacks_formula r'
          ∧ (_update_structures data w).1
            = Raise (BadResource r' formula_fields bad_resource_msg).
Proof.
  intros Hin Hr.
  destruct (label_structures_lacking data r Hin Hr) as (ex & Hl).
  destruct (label_structures_raises data ex Hl) as (r' & -> & _ & Hf).
  unfold _update_structures, mbind, M_bind, bind, lift. rewrite Hl.
  split; [reflexivity |]. exists r'.
  split; [apply formula_of_None; exact Hf | reflexivity].
Qed.

Lemma update_structures_all_or_nothing_witness :
  bare_record ∈ [sample_record; bare_record]
  ∧ lacks_formula bare_record
  ∧ (_update_structures [sample_record; bare_record] sample_widget).2
    = sample_widget.
Proof.
  assert (Hin : bare_record ∈ [sample_record; bare_record])
    by (apply list_elem_of_further, list_elem_of_here).
  assert (Hbare : lacks_formula bare_record)
    by (apply formula_of_None; reflexivity).
  split; [exact Hin | split; [exact Hbare |]].
  apply (proj1 (update_structures_all_or_nothing
                  [sample_record; bare_record] bare_record sample_widget
                  Hin Hbare)).
Defined.

(** ** The composed filter *)

Lemma append_length (x y : string) :
  String.length (x +:+ y) = String.length x + String.length y.
Proof.
  induction x as [|c x IH]; [reflexivity |].
  change (S (String.length (x +:+ y))
          = S (String.length x + String.length y)).
  rewrite IH. reflexivity.
Qed.

Lemma append_inj_r (a b t : string) : a +:+ t = b +:+ t → a = b.
Proof.
  revert b. induction a as [|c a IH]; intros [|d b] H.
  - reflexivity.
  - exfalso. apply (f_equal String.length) in H.
    rewrite !append_length in H. cbn in H. lia.
  - exfalso. apply (f_equal String.length) in H.
    rewrite !append_length in H. cbn in H. lia.
  - change (String c (a +:+ t) = String d (b +:+ t)) in H.
    injection H as -> H. f_equal. apply IH. exact H.
Qed.

(** Two fragments that compose to the same filter are the same fragment:
    the user's part can be read back from the filter sent. *)
Theorem filter_expression_inj (X Y : string) :
  filter_expression X = filter_expression Y → X = Y.
Proof.
  destruct X as [|c X], Y as [|d Y]; cbn [filter_expression]; intros H.
  - reflexivity.
  - exfalso. vm_compute in H. discriminate H.
  - exfalso. vm_compute in H. discriminate H.
  - apply (inj (String.app "( ")) in H.
    exact (append_inj_r _ _ _ H).
Qed.

(** ** The GETs of a command *)

Lemma execute_log net c w :
  sent (execute net c w).2
  = (sent w ++ match request_of c w with
               | Ret r => [r]
               | Raise _ => []
               end)%list.
Proof.
  destruct (request_of c w) as [req|ex] eqn:Hreq.
  - apply execute_sends. exact Hreq.
  - open_widget w. rewrite app_nil_r.
    destruct c as [|[n|url]]; run_methods in Hreq;
      [| | discriminate Hreq];
      destruct dict as [d|];
      try (destruct (d !! "base_url") eqn:Hu; [discriminate Hreq |]);
      walk; reflexivity.
Qed.

(** A command issues exactly one GET, the one built from the widget, or
    none at all when the base URL cannot be looked up; what was sent
    before stays in the log. *)
Theorem gets_of_a_command net c w :
  sent (execute net c w).2
  = (sent w ++ match request_of c w with
               | Ret r => [r]
               | Raise _ => []
               end)%list.
Proof. exact (execute_log net c w). Qed.

(** Without a base URL, no database chosen or a database without the key,
    a new query or a page advance to an integer sends nothing and raises
    the lookup error to its caller: nothing is shown, the dropdown and the
    recorded pagination stay, and the finally block still leaves the query
    button enabled. *)
Theorem no_base_url_no_request net c w :
  no_base_url w = true →
  (∀ url, c ≠ AdvancePage (Link url)) →
  sent (execute net c w).2 = sent w
  ∧ ((execute net c w).1 = Raise (TypeError "NoneType is not subscriptable")
     ∨ (execute net c w).1 = Raise (KeyError "base_url"))
  ∧ options (structure_drop (execute net c w).2) = options (structure_drop w)
  ∧ next_link (structure_page_chooser (execute net c w).2)
    = next_link (structure_page_chooser w)
  ∧ total_count (structure_page_chooser (execute net c w).2)
    = total_count (structure_page_chooser w)
  ∧ disabled (query_button (execute net c w).2) = false.
Proof.
  open_widget w. unfold no_base_url. cbn [database snd]. intros Hno Hc.
  destruct c as [|[n|url]]; [| |destruct (Hc url eq_refl)];
    destruct dict as [d|];
    try (destruct (d !! "base_url") eqn:Hu; [discriminate Hno |]);
    walk; auto 10.
Qed.

Lemma no_base_url_no_request_witness :
  no_base_url (__init__ false false None) = true
  ∧ (∀ url, SubmitQuery ≠ AdvancePage (Link url))
  ∧ sent (execute (fun _ => NotJson) SubmitQuery
            (__init__ false false None)).2 = []
  ∧ disabled
      (query_button
         (execute (fun _ => NotJson) SubmitQuery
            (__init__ false false None)).2) = false.
Proof.
  assert (Hc : ∀ url, SubmitQuery ≠ AdvancePage (Link url))
    by (intros url; discriminate).
  split; [reflexivity | split; [exact Hc |]].
  pose proof (no_base_url_no_request (fun _ => NotJson) SubmitQuery
                (__init__ false false None) eq_refl Hc)
    as (Hsent & _ & _ & _ & _ & Hbtn).
  split; [exact Hsent | exact Hbtn].
Defined.

(** ** The message on display *)

(** After a command the message area shows the message the command
    returned with, if it returned with one. Otherwise a new query has
    cleared it, also when it raised, while a page advance leaves whatever
    an earlier command had put there. *)
Theorem message_on_display net c w :
  error_or_status_messages (execute net c w).2
  = match (execute net c w).1 with
    | Ret (Reported msg) => Some msg
    | Ret Completed | Raise _ =>
        match c with
        | SubmitQuery => None
        | AdvancePage _ => error_or_status_messages w
        end
    end.
Proof.
  open_widget w.
  destruct c as [|[n|url]]; walk; reflexivity.
Qed.

(** ** A reply without data *)

(** A reply that passed the error and version checks but has no [data] key
    makes the command raise [KeyError]: nothing reaches the dropdown and
    no pagination data is recorded. *)
Theorem missing_data_raises net c w req doc :
  request_of c w = Ret req →
  net req = JsonBody doc →
  handle_errors (Decoded doc) (debug w) = Ret None →
  (c = SubmitQuery →
   validate_api_version
     (default EmptyString (api_version (get_meta (Decoded doc)))) = Ret tt) →
  doc_data doc = None →
  (execute net c w).1 = Raise (KeyError "data")
  ∧ options (structure_drop (execute net c w).2) = options (structure_drop w)
  ∧ next_link (structure_page_chooser (execute net c w).2)
    = next_link (structure_page_chooser w)
  ∧ total_count (structure_page_chooser (execute net c w).2)
    = total_count (structure_page_chooser w).
Proof.
  open_widget w. intros Hreq Hnet Herr Hver Hdata.
  destruct c as [|[n|url]]; split_result Hreq;
    try (specialize (Hver eq_refl); run_methods in Hver);
    split_errors Herr; walk; auto.
Qed.

Lemma missing_data_raises_witness :
  let doc :=
    {| doc_data := None; doc_meta := None;
       doc_links := Some {| links_next := Some "https://x/page2" |};
       doc_errors := None |} in
  request_of (AdvancePage (Link "https://x/page1")) sample_widget
  = Ret (GetLink "https://x/page1")
  ∧ handle_errors (Decoded doc) (debug sample_widget) = Ret None
  ∧ doc_data doc = None
  ∧ (execute (fun _ => JsonBody doc) (AdvancePage (Link "https://x/page1"))
       sample_widget).1
    = Raise (KeyError "data").
Proof.
  intros doc.
  split; [reflexivity | split; [reflexivity | split; [reflexivity |]]].
  apply (missing_data_raises (fun _ => JsonBody doc)
           (AdvancePage (Link "https://x/page1")) sample_widget
           (GetLink "https://x/page1") doc eq_refl eq_refl eq_refl).
  - intros H. discriminate H.
  - reflexivity.
Defined.

(** ** The version check comes first *)

(** When the version check of a new query raises, it does so before the
    data is looked at: the dropdown keeps its entries, no pagination data
    is recorded, and the message area is left cleared. *)
Theorem version_error_before_data net w base doc ex :
  database_base_url w = Ret base →
  net (GetQuery (queries_of w base)) = JsonBody doc →
  handle_errors (Decoded doc) (debug w) = Ret None →
  validate_api_version
    (default EmptyString (api_version (get_meta (Decoded doc)))) = Raise ex →
  (retrieve_data net w).1 = Raise ex
  ∧ options (structure_drop (retrieve_data net w).2)
    = options (structure_drop w)
  ∧ next_link (structure_page_chooser (retrieve_data net w).2)
    = next_link (structure_page_chooser w)
  ∧ total_count (structure_page_chooser (retrieve_data net w).2)
    = total_count (structure_page_chooser w)
  ∧ error_or_status_messages (retrieve_data net w).2 = None.
Proof.
  open_widget w. intros Hb Hnet Herr Hver.
  split_result Hb. run_methods in Hnet. run_methods in Hver.
  split_errors Herr; walk; auto.
Qed.

Lemma version_error_before_data_witness :
  let doc := sample_document "0.10.1" [sample_record] in
  database_base_url sample_widget = Ret "https://example.org/optimade"
  ∧ handle_errors (Decoded doc) (debug sample_widget) = Ret None
  ∧ validate_api_version
      (default EmptyString (api_version (get_meta (Decoded doc))))
    = Raise (ApiVersionError "0.10.1")
  ∧ options
      (structure_drop
         (retrieve_data (fun _ => JsonBody doc) sample_widget).2)
    = [].
Proof.
  intros doc.
  split; [reflexivity | split; [reflexivity | split; [reflexivity |]]].
  apply (proj1 (proj2 (version_error_before_data (fun _ => JsonBody doc)
                         sample_widget "https://example.org/optimade" doc
                         (ApiVersionError "0.10.1")
                         eq_refl eq_refl eq_refl eq_refl))).
Defined.

(** ** Sessions *)

Lemma offset_used_after c w : offset_used c w = offset_after c (offset w).
Proof. destruct c as [|[n|url]]; reflexivity. Qed.

(** Over any list of commands the offset field is the last integer a page
    advance asked for, the starting offset when there was none: no new
    query and no link page advance ever writes it. The debug flag, the
    page limit, the filter fragment and the database stay as they were. *)
Theorem session_offset net cs w :
  offset (session net cs w) = last_offset cs (offset w)
  ∧ debug (session net cs w) = debug w
  ∧ page_limit (session net cs w) = page_limit w
  ∧ collect_value (filters (session net cs w)) = collect_value (filters w)
  ∧ database (session net cs w) = database w.
Proof.
  revert w. induction cs as [|c cs IH]; intros w; cbn [session last_offset].
  - auto.
  - destruct (execute_frame net c w) as (Hdbg & Hlim & Hfil & Hdb & Hoff).
    destruct (IH (execute net c w).2) as (IHoff & IHdbg & IHlim & IHfil & IHdb).
    rewrite IHoff, IHdbg, IHlim, IHfil, IHdb.
    rewrite Hoff, Hdbg, Hlim, Hfil, Hdb, offset_used_after. auto.
Qed.

Lemma built_from_frame w w' r :
  page_limit w' = page_limit w →
  collect_value (filters w') = collect_value (filters w) →
  database w' = database w →
  built_from w' r → built_from w r.
Proof.
  intros Hlim Hfil Hdb. destruct r as [url|q]; [auto |].
  unfold built_from, database_base_url. rewrite Hlim, Hfil, Hdb. auto.
Qed.

Lemma request_of_built_from c w req :
  request_of c w = Ret req → built_from w req.
Proof.
  destruct c as [|[n|url]]; cbn [request_of].
  - destruct (database_base_url w) as [base|] eqn:Hb; [|discriminate].
    intros [= <-]. cbn. auto 10.
  - destruct (database_base_url w) as [base|] eqn:Hb; [|discriminate].
    intros [= <-]. cbn. unfold database_base_url in *. cbn. auto 10.
  - intros [= <-]. exact I.
Qed.

(** Over any list of commands the log only grows, by at most one GET per
    command, and every GET built from parameters carries the page limit,
    the base URL and the composed filter of the widget, hence the
    exclusion predicate. *)
Theorem session_requests net cs w :
  ∃ new,
    sent (session net cs w) = (sent w ++ new)%list
    ∧ (List.length new ≤ List.length cs)%nat
    ∧ Forall (built_from w) new.
Proof.
  revert w. induction cs as [|c cs IH]; intros w; cbn [session].
  - exists []. rewrite app_nil_r. split; [reflexivity |].
    split; [reflexivity | constructor].
  - destruct (IH (execute net c w).2) as (new & Hsent & Hlen & Hall).
    destruct (execute_frame net c w) as (_ & Hlim & Hfil & Hdb & _).
    rewrite Hsent, execute_log, <- app_assoc.
    eexists. split; [reflexivity |].
    assert (Hall' : Forall (built_from w) new).
    { eapply Forall_impl; [exact Hall |]. intros r.
      apply built_from_frame; assumption. }
    destruct (request_of c w) as [req|ex] eqn:Hreq; cbn [app List.length].
    + split; [lia |]. constructor; [|exact Hall'].
      apply (request_of_built_from c). exact Hreq.
    + split; [lia | exact Hall'].
Qed.

(** ** Choosing a database *)

(** Assigning the database trait stores the database and touches neither
    the offset, the page limit nor the log. *)
Lemma select_database_frame sd_reset d w :
  database (select_database sd_reset d w).2 = d
  ∧ offset (select_database sd_reset d w).2 = offset w
  ∧ page_limit (select_database sd_reset d w).2 = page_limit w
  ∧ sent (select_database sd_reset d w).2 = sent w.
Proof.
  open_widget w. destruct d as [name [d|]];
    [destruct (d !! "base_url") eqn:Hu |]; walk_all; auto.
Qed.


(** ** Resetting the widget *)

(** [reset] enables the query button under the tooltip of the no-database
    state, whatever the database, and keeps database, page limit and
    offset: the next new query is built with the offset left by the last
    page advance. *)
Theorem reset_keeps_offset fi_reset sd_reset pc_reset w :
  let w' := (reset fi_reset sd_reset pc_reset w).2 in
  disabled (query_button w') = false
  ∧ tooltip (query_button w') = "Search - No database chosen"
  ∧ database w' = database w
  ∧ page_limit w' = page_limit w
  ∧ offset w' = offset w
  ∧ request_of SubmitQuery w'
    = match database_base_url w with
      | Ret url =>
          Ret (GetQuery
                 {| base_url := url;
                    filter_ :=
                      filter_expression
                        (collect_value (fi_reset (filters w)));
                    format_ := "json"; email := None; fields := None;
                    limit := page_limit w; q_offset := offset w |})
      | Raise ex => Raise ex
      end.
Proof.
  open_widget w. cbn zeta.
  destruct dict as [d|]; [destruct (d !! "base_url") eqn:Hu|];
    walk_all; rewrite ?Hu; repeat split; reflexivity.
Qed.

(** ** A fresh widget *)

(** The page limit of a fresh widget is never 0: a missing or zero
    [result_limit] gives 10. Once a database with a base URL is chosen, the
    first new query sends one GET with offset 0 and that page limit. *)
Theorem first_query_of_a_fresh_widget net sd_reset dbg emb result_limit
  name d url :
  d !! "base_url" = Some url →
  let w0 := __init__ dbg emb result_limit in
  let w := (select_database sd_reset (name, Some d) w0).2 in
  page_limit w0 ≠ 0%Z
  ∧ (result_limit = None ∨ result_limit = Some 0%Z → page_limit w0 = 10%Z)
  ∧ ∃ q,
      sent (retrieve_data net w).2 = [GetQuery q]
      ∧ q_offset q = 0%Z ∧ limit q = page_limit w0 ∧ base_url q = url.
Proof.
  intros Hu w0 w. split; [|split].
  - subst w0. cbn. destruct result_limit as [n|]; [|discriminate].
    destruct (Z.eqb n 0) eqn:Hn; [discriminate |].
    apply Z.eqb_neq. exact Hn.
  - subst w0. intros [-> | ->]; reflexivity.
  - destruct (select_database_frame sd_reset (name, Some d) w0)
      as (Hdb & Hoff & Hlim & Hsent).
    fold w in Hdb, Hoff, Hlim, Hsent.
    assert (Hb : database_base_url w = Ret url).
    { unfold database_base_url. rewrite Hdb. cbn. rewrite Hu. reflexivity. }
    pose proof (execute_sends net SubmitQuery w
                  (GetQuery (queries_of w url))) as Hs.
    cbn [request_of execute] in Hs. rewrite Hb in Hs.
    specialize (Hs eq_refl). rewrite Hsent in Hs.
    exists (queries_of w url). split; [exact Hs |].
    cbn. rewrite Hoff, Hlim. auto.
Qed.

Lemma first_query_of_a_fresh_widget_witness :
  let d : gmap string string :=
    {[ "base_url" := "https://example.org/optimade" ]} in
  d !! "base_url" = Some "https://example.org/optimade"
  ∧ page_limit (__init__ false false (Some 0%Z)) = 10%Z.
Proof.
  intros d.
  assert (Hu : d !! "base_url" = Some "https://example.org/optimade")
    by reflexivity.
  split; [exact Hu |].
  apply (proj1 (proj2 (first_query_of_a_fresh_widget (fun _ => NotJson)
                         (fun sd => sd) false false (Some 0%Z) "Sample"
                         d "https://example.org/optimade" Hu))).
  right. reflexivity.
Defined.

Lemma filter_expression_inj_witness :
  filter_expression "nelements=2" = filter_expression "nelements=2"
  ∧ "nelements=2" = "nelements=2".
Proof.
  split; [reflexivity |].
  apply (filter_expression_inj "nelements=2" "nelements=2"). reflexivity.
Defined.

